(** * SimpleSpark: the provisioning commands of [simplespark/app.py]

    A shallow embedding of the command module of SimpleSpark and of
    [parse_requirements] of [setup.py], and the properties of the design
    document that can be stated over them.

    ** How the module is read

    [app.py] drives external programs ([docker-machine], [docker-compose],
    [docker], [aws]) through [subprocess].  A command is embedded as a
    computation over the history of external events of the run; the host
    (the programs' exit statuses and outputs, the process environment)
    is a parameter.  The programs are taken to exist (no call fails to
    start), and strings are byte strings, as in the Python 2 the module is
    written for.

    The module is embedded as it is written.  Only the two commas that
    lines 56 and 125 lack between two arguments are read in, without which
    there is no module to speak of.  Everything else has the meaning
    Python gives it:

    - [get_consul_ip] (line 87), [master_instance_type] (line 102),
      [env_vars] (line 138) and [json] (line 152) are bound nowhere:
      evaluating each raises [NameError];
    - line 91 gives [os.path.dirname] two arguments: [TypeError];
    - [num_workers] is the string [click] passes: [range(num_workers)]
      (line 119) is a [TypeError];
    - [re.finall] (line 139) is no attribute of [re]: [AttributeError];
    - [get_swarm_env] has no [return]; the adjacent string literals of
      lines 38 and 171 concatenate; the counts of the scale request are
      literals; [test_spark_cluster] gives its submission no [env].

    What follows a raise in the source is embedded all the same, typed by
    the value the name would have; the theorems show that no run gets
    there. *)

From Stdlib Require Import ZArith Lia Ascii String List.
From stdpp Require Import base option list strings gmap fin_maps pretty.

Import ListNotations.
Open Scope string_scope.
Open Scope list_scope.
Open Scope Z_scope.

(** ** Regular expressions, as far as the module's patterns need them *)

Module Re.

Inductive re : Type :=
| Never
| Eps
| Chr (p : ascii -> bool)
| Cat (r s : re)
| Alt (r s : re).

Fixpoint nullable (r : re) : bool :=
  match r with
  | Never => false
  | Eps => true
  | Chr _ => false
  | Cat r s => nullable r && nullable s
  | Alt r s => nullable r || nullable s
  end.

Fixpoint deriv (c : ascii) (r : re) : re :=
  match r with
  | Never => Never
  | Eps => Never
  | Chr p => if p c then Eps else Never
  | Cat r s =>
      if nullable r then Alt (Cat (deriv c r) s) (deriv c s)
      else Cat (deriv c r) s
  | Alt r s => Alt (deriv c r) (deriv c s)
  end.

Fixpoint accepts (r : re) (s : list ascii) : bool :=
  match s with
  | [] => nullable r
  | c :: s' => accepts (deriv c r) s'
  end.

(** [r?] and [r{1,n}] *)
Definition opt (r : re) : re := Alt r Eps.

Fixpoint upto (n : nat) (r : re) : re :=
  match n with
  | O => Eps
  | S n' => opt (Cat r (upto n' r))
  end.

Definition rep1 (n : nat) (r : re) : re := Cat r (upto (Nat.pred n) r).

Definition lit (c : ascii) : re := Chr (Ascii.eqb c).

(** [\d] on a byte string *)
Definition is_digit (c : ascii) : bool :=
  (48 <=? nat_of_ascii c)%nat && (nat_of_ascii c <=? 57)%nat.

Definition digit : re := Chr is_digit.

(** A trailing [$] of a pattern given to [re.match]: the end of the
    string, or the position before a newline that ends the string. *)
Definition dollar : re := opt (lit "010"%char).

End Re.

(** [re.match(r'^\d{1,3}\.\d{1,3}\.\d{1,3}\.\d{1,3}(:\d{1,5})?$', _)] *)
Definition ip_pattern : Re.re :=
  Re.Cat (Re.rep1 3 Re.digit) (Re.Cat (Re.lit ".")
  (Re.Cat (Re.rep1 3 Re.digit) (Re.Cat (Re.lit ".")
  (Re.Cat (Re.rep1 3 Re.digit) (Re.Cat (Re.lit ".")
  (Re.Cat (Re.rep1 3 Re.digit)
  (Re.Cat (Re.opt (Re.Cat (Re.lit ":") (Re.rep1 5 Re.digit)))
   Re.dollar))))))).

(** [looks_like_ip]: the truth value of the match object. *)
Definition looks_like_ip (potential_ip : string) : bool :=
  Re.accepts ip_pattern (list_ascii_of_string potential_ip).


(** ** Data *)

(** A process environment, and the [dict] of [get_swarm_env]. *)
Abbreviation Env := (gmap string string).

(** Documents decoded by [json.loads]. *)
#[warnings="-register-all"]
Inductive json : Type :=
| JNull
| JBool (b : bool)
| JNum (n : Z)
| JStr (s : string)
| JArr (items : list json)
| JObj (fields : gmap string json).

(** The exceptions the commands can raise. *)
Inductive exn : Type :=
| CalledProcessError (returncode : Z) (cmd : list string)
| KeyError (key : string)
| TypeError
| ValueError
| EnvironmentError (msg : string)
| NameError (name : string)
| AttributeError (attribute : string).

(** What a run does to the outside, in order.  [env = None] is a call
    without [env=] (or with [env=None]): the child inherits the process
    environment. *)
Inductive event : Type :=
| Echo (line : string)
| CheckCall (argv : list string) (env : option Env) (returncode : Z)
| CheckOutput (argv : list string) (env : option Env) (returncode : Z) (output : string)
| Popen (argv : list string)
| Wait (argv : list string) (returncode : Z).

(** The host of a run.  Every answer may depend on what the run did
    before (the history). *)
Record Host : Type := {
  (** [os.environ] *)
  os_environ : Env;
  (** exit status and standard output of a program run to completion *)
  run : list event -> list string -> option Env -> Z * string;
  (** exit status of a child started with [Popen], read by [wait] *)
  child : list event -> list string -> Z;
  (** [str()] of a decoded value *)
  py_str : json -> string
}.

(** ** Commands as computations over the history *)

Definition M (A : Type) : Type := list event -> (exn + A) * list event.

Definition ret {A} (a : A) : M A := fun h => (inr a, h).
Definition raise {A} (e : exn) : M A := fun h => (inl e, h).
Definition bind {A B} (m : M A) (k : A -> M B) : M B :=
  fun h => match m h with
           | (inr a, h') => k a h'
           | (inl e, h') => (inl e, h')
           end.

Declare Scope py_scope.
Delimit Scope py_scope with py.
Notation "x <- c1 ;; c2" := (bind c1 (fun x => c2))
  (at level 100, c1 at next level, right associativity) : py_scope.
Notation "c1 ;; c2" := (bind c1 (fun _ => c2))
  (at level 100, right associativity) : py_scope.
Open Scope py_scope.

(** [for x in xs: f(x)], collecting the values *)
Fixpoint for_each {A B} (f : A -> M B) (xs : list A) : M (list B) :=
  match xs with
  | [] => ret []
  | x :: xs' => y <- f x ;; ys <- for_each f xs' ;; ret (y :: ys)
  end.

(** The events of a history, by kind. *)
Definition popens (h : list event) : list (list string) :=
  omap (fun e => match e with Popen a => Some a | _ => None end) h.
Definition waits (h : list event) : list (list string * Z) :=
  omap (fun e => match e with Wait a c => Some (a, c) | _ => None end) h.
Definition echoes (h : list event) : list string :=
  omap (fun e => match e with Echo s => Some s | _ => None end) h.
Definition check_calls (h : list event) : list (list string * option Env * Z) :=
  omap (fun e => match e with CheckCall a v c => Some (a, v, c) | _ => None end) h.
Definition check_outputs (h : list event) : list (list string * option Env * Z * string) :=
  omap (fun e => match e with CheckOutput a v c o => Some (a, v, c, o) | _ => None end) h.

(** ** The pure parts of [get_swarm_env] *)

(** [x.split('=', 1)] *)
Fixpoint split_eq (s : string) : list string :=
  match s with
  | EmptyString => [EmptyString]
  | String c s' =>
      if Ascii.eqb c "=" then [EmptyString; s']
      else match split_eq s' with
           | x :: rest => String c x :: rest
           | [] => [String c EmptyString]
           end
  end.

(** [dict(pairs)]: a later pair replaces an earlier one with its key; an
    element that is not a pair is a [ValueError]. *)
Fixpoint dict (acc : Env) (pairs : list (list string)) : exn + Env :=
  match pairs with
  | [] => inr acc
  | [k; v] :: rest => dict (<[k := v]> acc) rest
  | _ :: _ => inl ValueError
  end.

(** [d.update(e)] *)
Definition update (d e : Env) : Env := e ∪ d.

(** ** The pure parts of [get_ip_from_name] and [create_cluster] *)

(** [v[key]] for a string [key] *)
Definition subscript (v : json) (key : string) : exn + json :=
  match v with
  | JObj fields =>
      match fields !! key with
      | Some x => inr x
      | None => inl (KeyError key)
      end
  | _ => inl TypeError
  end.

Definition and_then {A B} (r : exn + A) (k : A -> exn + B) : exn + B :=
  match r with
  | inr a => k a
  | inl e => inl e
  end.

(** [j['Reservations']['Instances'][instance_name]] *)
Definition lookup_instance (j : json) (instance_name : string) : exn + json :=
  and_then (subscript j "Reservations") (fun reservations =>
  and_then (subscript reservations "Instances") (fun instances =>
  subscript instances instance_name)).

(** [instance['State']['Name']] *)
Definition state_name (instance : json) : exn + json :=
  and_then (subscript instance "State") (fun state => subscript state "Name").

Definition not_running_message (instance_name : string) : string :=
  "Instance with name " +:+ instance_name +:+ " is not currently in a running state".

(** [v != 'running'] *)
Definition not_running (v : json) : bool :=
  match v with
  | JStr s => negb (String.eqb s "running")
  | _ => true
  end.

(** [str(n)] of a natural number *)
Definition str (n : nat) : string := pretty n.

(** The arguments of [create_cluster] (lines 81-82); [num_workers] is the
    string of the command line. *)
Record create_args : Type := {
  num_workers : string;
  cluster_prefix : string;
  security_group : string;
  consul : string;
  network_interface : string;
  worker_spot_price : string;
  worker_instance_type : string;
  docker_compose_file : option string
}.

(** [not docker_compose_file] is false for a non-empty string only. *)
Definition given (file : option string) : bool :=
  match file with
  | Some (String _ _) => true
  | _ => false
  end.

Definition driver_options (a : create_args) : list string :=
  ["--driver"; "amazonec2"; "--amazonec2-security-group=" +:+ security_group a].

Definition swarm_options (a : create_args) (consul : string) : list string :=
  ["--swarm";
   "--swarm-discovery=consul://" +:+ consul +:+ ":8500";
   "--engine-opt=cluster-store=consul://" +:+ consul +:+ ":8500";
   "--engine-opt=cluster-advertise=" +:+ network_interface a +:+ ":2376"].

Definition master_name (prefix : string) : string := prefix +:+ "-master".

(** The argument vector of line 100, for a value of the name
    [master_instance_type]. *)
Definition master_create (a : create_args) (consul master_instance_type : string)
  : list string :=
  ["docker-machine"; "create"] ++ driver_options a ++ swarm_options a consul ++
  ["--swarm-master"; "-engine-label"; "role=master";
   "--amazonec2-instance-type=" +:+ master_instance_type;
   master_name (cluster_prefix a)].

Definition worker_name (prefix : string) (worker_num : nat) : string :=
  (prefix +:+ "-worker-") +:+ str worker_num.

(** The argument vector of line 114. *)
Definition worker_create (a : create_args) (consul : string) (worker_num : nat)
  : list string :=
  ["docker-machine"; "create"] ++ driver_options a ++ swarm_options a consul ++
  ["--amazonec2-request-spot-instance";
   "--amazonec2-spot=price=" +:+ worker_spot_price a;
   "--amazonec2-instance-type=" +:+ worker_instance_type a;
   worker_name (cluster_prefix a) worker_num].

(** The argument vectors of lines 113-119, for the numbers the [range]
    gives. *)
Definition worker_requests (a : create_args) (consul : string) (indices : list nat)
  : list (list string) :=
  map (worker_create a consul) indices.

Definition compose_up (file : string) : list string :=
  ["docker-compose"; "-f"; file; "up"; "-d"; "master"].

(** The argument vector of line 125. *)
Definition compose_scale (file : string) : list string :=
  ["docker-compose"; "-f"; file; "scale"; "master=1"; "worker=10"].

Definition docker_machine_env (master_name : string) : list string :=
  ["docker-machine"; "env"; "--shell"; "sh"; "--swarm"; master_name].

Definition describe_instances : list string :=
  ["aws"; "ec2"; "describe-instances"].

Definition docker_machine_rm (instance_name : string) : list string :=
  ["docker-machine"; "rm"; "-y"; instance_name].

(** The argument vector of line 170; the literals ['--entrypoint'] and
    ['spark-submit'] are adjacent and make one argument. *)
Definition spark_submit : list string :=
  ["docker"; "run"; "--net=container:master"; "--entrypoint" +:+ "spark-submit";
   "gettyimages/spark:2.0.2-hadoop-2.7";
   "--master"; "spark://master:7077";
   "--class"; "org.apache.spark.examples.SparkPi";
   "/usr/spark/lib/spark-examples-2.0.2-hadoop2.7.0.jar"].

Section Commands.

Variable host : Host.

(** *** The primitives of [click] and [subprocess] *)

Definition echo (line : string) : M unit :=
  fun h => (inr tt, h ++ [Echo line]).

(** [subprocess.check_call(argv, env=env)] *)
Definition check_call (argv : list string) (env : option Env) : M unit :=
  fun h =>
    let c := fst (run host h argv env) in
    (if c =? 0 then inr tt else inl (CalledProcessError c argv),
     h ++ [CheckCall argv env c]).

(** [subprocess.check_output(argv)]; the module never gives it [env=] *)
Definition check_output (argv : list string) : M string :=
  fun h =>
    let '(c, out) := run host h argv None in
    (if c =? 0 then inr out else inl (CalledProcessError c argv),
     h ++ [CheckOutput argv None c out]).

(** [subprocess.Popen(argv)]: the child is started and not waited for *)
Definition popen (argv : list string) : M (list string) :=
  fun h => (inr argv, h ++ [Popen argv]).

(** [p.wait()]: blocks until the child is done; its exit status is the
    value, whatever it is *)
Definition wait (p : list string) : M Z :=
  fun h => let c := child host h p in (inr c, h ++ [Wait p c]).

Definition lift {A} (r : exn + A) : M A := fun h => (r, h).

(** A name that is bound nowhere: evaluating it raises.  What the source
    goes on to do with it is typed by the value the name would have. *)
Definition unbound {A} (name : string) : M A := raise (NameError name).

(** An attribute the module does not have. *)
Definition no_attribute {A} (attribute : string) : M A :=
  raise (AttributeError attribute).

(** A call the callee refuses for its arguments. *)
Definition refused {A} : M A := raise TypeError.

(** *** [get_swarm_env] (lines 129-139)

    Line 138 looks [env_vars] up before anything else; line 139 asks [re]
    for [finall]; the function has no [return]. *)
Definition get_swarm_env (master_name : string) : M (option Env) :=
  raw_env <- check_output (docker_machine_env master_name) ;;
  env_vars <- (unbound "env_vars" : M Env) ;;
  let env_vars := update env_vars (os_environ host) in
  found <- (no_attribute "finall" : M (list string)) ;;
  parsed <- lift (dict ∅ (map split_eq found)) ;;
  let env_vars := update env_vars parsed in
  ret None.

(** *** [get_ip_from_name] (lines 142-158)

    [json] is imported nowhere: line 152 raises on the name. *)
Definition get_ip_from_name (instance_name : string) (private : bool) : M json :=
  raw_json <- check_output describe_instances ;;
  json_loads <- (unbound "json" : M (string -> exn + json)) ;;
  j <- lift (json_loads raw_json) ;;
  instance <- lift (lookup_instance j instance_name) ;;
  state <- lift (state_name instance) ;;
  if not_running state then
    raise (EnvironmentError (not_running_message instance_name))
  else if private then lift (subscript instance "PrivateIpAddress")
  else lift (subscript instance "PublicDnsName").

(** *** [destroy_consul_box] (lines 55-60) *)
Definition destroy_consul_box (instance_name : string) : M unit :=
  check_call (docker_machine_rm instance_name) None.

(** *** [create_cluster] (lines 81-126)

    In two parts: the discovery address (lines 84-88), and the rest (lines
    90-126). *)
Definition create_cluster_discovery (a : create_args) : M string :=
  echo ("Creating a spark cluster with " +:+ num_workers a +:+ " workers...") ;;
  if looks_like_ip (consul a) then ret (consul a)
  else
    get_consul_ip <- (unbound "get_consul_ip" : M (string -> M string)) ;;
    consul <- get_consul_ip (consul a) ;;
    echo ("Found Consul at " +:+ consul) ;;
    ret consul.

Definition create_cluster_machines (a : create_args) (consul : string) : M unit :=
  docker_compose_file <-
    (match docker_compose_file a with
     | Some (String c f) => ret (String c f)
     | _ =>
         joined <- (refused : M string) ;;
         echo ("Found docker-compose.yml at " +:+ joined) ;;
         ret joined
     end) ;;
  let master_name := master_name (cluster_prefix a) in
  master_instance_type <- (unbound "master_instance_type" : M string) ;;
  check_call (master_create a consul master_instance_type) None ;;
  swarm_env <- get_swarm_env master_name ;;
  check_call (compose_up docker_compose_file) swarm_env ;;
  master_dns_name <- get_ip_from_name master_name false ;;
  echo ("Master node up. You can test by going to http://" +:+
        py_str host master_dns_name +:+ ":8080") ;;
  echo ("Bringing up " +:+ num_workers a +:+ " workers...") ;;
  indices <- (refused : M (list nat)) ;;
  processes <- for_each popen (worker_requests a consul indices) ;;
  for_each wait processes ;;
  echo "Adding workers to swarm..." ;;
  check_call (compose_scale docker_compose_file) swarm_env.

Definition create_cluster (a : create_args) : M unit :=
  consul <- create_cluster_discovery a ;;
  create_cluster_machines a consul.

(** *** [test_spark_cluster] (lines 164-176)

    In two parts: the environment (lines 166-167), and the submission
    (lines 169-176), which has [swarm_env] in scope and gives its call no
    [env]. *)
Definition test_spark_cluster_submit (master_name : string) (swarm_env : option Env)
  : M unit :=
  echo ("Submitting job to " +:+ master_name) ;;
  output <- check_output spark_submit ;;
  echo output.

Definition test_spark_cluster (cluster_prefix : string) : M unit :=
  let master_name := master_name cluster_prefix in
  swarm_env <- get_swarm_env master_name ;;
  test_spark_cluster_submit master_name swarm_env.

End Commands.

(** A run starts with an empty history. *)
Definition exec {A} (m : M A) : (exn + A) * list event := m [].

(** The opening line of [create_cluster]. *)
Definition creating (a : create_args) : event :=
  Echo ("Creating a spark cluster with " +:+ num_workers a +:+ " workers...").

(** The error a run of [create_cluster] ends with: at line 87 for a
    reference that is no literal, at line 91 without a compose file, at
    line 102 otherwise. *)
Definition create_error (a : create_args) : exn :=
  if looks_like_ip (consul a) then
    if given (docker_compose_file a) then NameError "master_instance_type"
    else TypeError
  else NameError "get_consul_ip".

(** The error [get_swarm_env] ends with after a query of status [c]. *)
Definition swarm_env_error (master_name : string) (c : Z) : exn :=
  if c =? 0 then NameError "env_vars"
  else CalledProcessError c (docker_machine_env master_name).

(** The error [get_ip_from_name] ends with after a query of status [c]. *)
Definition inventory_error (c : Z) : exn :=
  if c =? 0 then NameError "json" else CalledProcessError c describe_instances.

(** ** What the design document asks of a run *)

(** A compose request is a scale request by its fourth argument. *)
Definition is_scale_request (argv : list string) : bool :=
  match argv with
  | _ :: _ :: _ :: "scale" :: _ => true
  | _ => false
  end.

Definition scale_requests (t : list event) : list (list string) :=
  filter (fun argv => is_scale_request argv = true)
         (map (fun c => fst (fst c)) (check_calls t)).

(** The submissions of a run of [test]. *)
Definition submissions (t : list event) : list (list string) :=
  filter (fun argv => argv = spark_submit)
         (map (fun c => fst (fst (fst c))) (check_outputs t)).

(** The inventory queries of a history. *)
Definition inventory_queries (h : list event) : nat :=
  length (filter (fun c => fst (fst (fst c)) = describe_instances) (check_outputs h)).

(** ** Strings the address check is asked about *)

(** A run of digits of a length between [lo] and [hi]. *)
Definition digits (lo hi : nat) (s : list ascii) : Prop :=
  Forall (fun c => Re.is_digit c = true) s /\ (lo <= length s <= hi)%nat.

(** Four groups and an optional port, written out. *)
Definition dotted (g1 g2 g3 g4 : list ascii) (port : option (list ascii)) : string :=
  string_of_list_ascii
    (g1 ++ "."%char :: g2 ++ "."%char :: g3 ++ "."%char :: g4 ++
     match port with
     | Some p => ":"%char :: p
     | None => []
     end).

(** The number a run of digits writes. *)
Definition value (s : list ascii) : N :=
  fold_left (fun n c => (10 * n + (N_of_ascii c - 48))%N) s 0%N.

(** ** Hosts to run the commands on *)

Definition newline : string := String "010"%char EmptyString.
Definition quote : string := String "034"%char EmptyString.
Definition quoted (s : string) : string := quote +:+ s +:+ quote.

(** What [aws ec2 describe-instances] prints for the one instance
    [spark-master] in a given state. *)
Definition aws_document (state : string) : string :=
  "{" +:+ quoted "Reservations" +:+ ": [{" +:+ quoted "Instances" +:+ ": [{" +:+
  quoted "InstanceId" +:+ ": " +:+ quoted "i-0f3a9c" +:+ ", " +:+
  quoted "State" +:+ ": {" +:+ quoted "Name" +:+ ": " +:+ quoted state +:+ "}, " +:+
  quoted "PrivateIpAddress" +:+ ": " +:+ quoted "10.0.0.7" +:+ ", " +:+
  quoted "PublicDnsName" +:+ ": " +:+ quoted "ec2-10-0-0-7.compute.example" +:+ ", " +:+
  quoted "Tags" +:+ ": [{" +:+ quoted "Key" +:+ ": " +:+ quoted "Name" +:+ ", " +:+
  quoted "Value" +:+ ": " +:+ quoted "spark-master" +:+ "}]}]}]}".

(** A decoded document in that layout: [Reservations] and [Instances]
    are arrays. *)
Definition aws_inventory (state : string) : json :=
  JObj {[ "Reservations" :=
    JArr [JObj {[ "Instances" :=
      JArr [JObj {[ "InstanceId" := JStr "i-0f3a9c";
                    "State" := JObj {[ "Name" := JStr state ]};
                    "PrivateIpAddress" := JStr "10.0.0.7";
                    "PublicDnsName" := JStr "ec2-10-0-0-7.compute.example" ]}] ]}] ]}.

Definition machine_env : string :=
  "export DOCKER_TLS_VERIFY=1" +:+ newline +:+
  "export DOCKER_HOST=tcp://10.0.0.7:3376" +:+ newline +:+
  "export PATH=/opt/docker/bin" +:+ newline.

(** A host on which every program succeeds, but for: [docker-machine
    create], run to completion, ends with [create_status]; the inventory
    program prints the instance in the state it has after so many
    queries; worker processes end with the status [status] gives their
    machine name; [docker-machine rm] ends with status 1 for a machine
    that is not in [machines]. *)
Definition lab (create_status : Z) (state : nat -> string) (status : string -> Z)
  (machines : list string) : Host := {|
  os_environ := {[ "PATH" := "/usr/bin"; "HOME" := "/root" ]};
  run := fun h argv env =>
    match argv with
    | ["aws"; "ec2"; "describe-instances"] =>
        (0, aws_document (state (inventory_queries h)))
    | "docker-machine" :: "create" :: _ => (create_status, "")
    | "docker-machine" :: "env" :: _ => (0, machine_env)
    | ["docker-machine"; "rm"; "-y"; name] =>
        (if bool_decide (name ∈ machines) then 0 else 1, "")
    | "docker" :: _ => (0, "Pi is roughly 3.14")
    | _ => (0, "")
    end;
  child := fun h argv => status (default "" (last argv));
  py_str := fun v => match v with JStr s => s | _ => "" end
|}.

Definition always (state : string) : nat -> string := fun _ => state.

(** Pending at the first query, running from the second. *)
Definition coming_up : nat -> string :=
  fun queries => match queries with O => "pending" | S _ => "running" end.

Definition all_up : string -> Z := fun _ => 0.
Definition down (names : list string) : string -> Z :=
  fun name => if bool_decide (name ∈ names) then 1 else 0.

(** A host on which every program ends with [status], having printed
    nothing. *)
Definition lab_status (status : Z) : Host := {|
  os_environ := ∅;
  run := fun h argv env => (status, "");
  child := fun h argv => 0;
  py_str := fun v => ""
|}.

Definition spark (n : string) (consul : string) (file : option string) : create_args := {|
  num_workers := n;
  cluster_prefix := "spark";
  security_group := "spark-sg";
  consul := consul;
  network_interface := "eth0";
  worker_spot_price := "0.074";
  worker_instance_type := "m4.2xlarge";
  docker_compose_file := file
|}.

(** ** The rest of the module: [create_consul_box] (lines 26-52) *)


(** The argument vector of line 38; the literals ['create'] and
    ['--driver'] are adjacent and make one argument. *)
Definition consul_machine_create (instance_name instance_type security_group : string)
  : list string :=
  ["docker-machine"; "create" +:+ "--driver"; "amazonec2";
   "--amazonec2-security-group=" +:+ security_group;
   "--amazonec2-instance-type=" +:+ instance_type;
   instance_name].

Definition docker_machine_config (instance_name : string) : list string :=
  ["docker-machine"; "config"; instance_name].

(** The value of [-e] on lines 46-50. *)
Definition consul_local_config : string :=
  "CONSUL_LOCAL_CONFIG={" +:+
  quoted "acl_datacenter" +:+ ":" +:+ quoted "dc1" +:+ "," +:+
  quoted "acl_default_policy" +:+ ":" +:+ quoted "deny" +:+ "," +:+
  quoted "acl_down_policy" +:+ ":" +:+ quoted "extend-cache" +:+ "," +:+
  quoted "acl_master_token" +:+ ":" +:+ quoted "the_one_ring" +:+ "," +:+
  quoted "bootstrap_expect" +:+ ":1," +:+
  quoted "datacenter" +:+ ":" +:+ quoted "dc1" +:+ "," +:+
  quoted "data_dir" +:+ ":" +:+ quoted "/usr/local/bin/consul.d/data" +:+ "," +:+
  quoted "server" +:+ ":true}".

(** The argument vector of line 44: the whole output of [docker-machine
    config] is one argument. *)
Definition consul_run (machine_connection : string) : list string :=
  ["docker"; machine_connection; "run"; "-d";
   "-p"; "8400:8400"; "-p"; "8500:8500/tcp"; "-p"; "8600:53/udp";
   "-e"; consul_local_config;
   "consul:0.7.2"; "agent"; "-server"; "-bind=127.0.0.1"; "-client=0.0.0.0"].

Definition create_consul_box (host : Host)
  (instance_name instance_type security_group : string) : M unit :=
  let driver_options :=
    ["--driver"; "amazonec2"; "--amazonec2-security-group=" +:+ security_group] in
  check_call host (consul_machine_create instance_name instance_type security_group)
             None ;;
  machine_connection <- check_output host (docker_machine_config instance_name) ;;
  check_call host (consul_run machine_connection) None ;;
  echo ("Consul box successfully created at " +:+ machine_connection).

(** ** [setup.py]: [parse_requirements] (lines 8-18) *)

(** The longest prefix of [s] within a character class, and the rest. *)
Fixpoint span (p : ascii -> bool) (s : list ascii) : list ascii * list ascii :=
  match s with
  | [] => ([], [])
  | c :: s' =>
      if p c then let '(run, rest) := span p s' in (c :: run, rest)
      else ([], s)
  end.

(** Iterating over an open file: its lines, each with its newline; the
    last one may have none. *)
Fixpoint file_lines (contents : list ascii) : list (list ascii) :=
  match contents with
  | [] => []
  | c :: rest =>
      if Ascii.eqb c "010" then [c] :: file_lines rest
      else match file_lines rest with
           | [] => [[c]]
           | line :: lines => (c :: line) :: lines
           end
  end.

(** The characters [strip()] removes from a byte string. *)
Definition is_space (c : ascii) : bool :=
  (Ascii.eqb c " " || Ascii.eqb c "009" || Ascii.eqb c "010" ||
   Ascii.eqb c "011" || Ascii.eqb c "012" || Ascii.eqb c "013")%char.

Fixpoint lstrip (line : list ascii) : list ascii :=
  match line with
  | [] => []
  | c :: rest => if is_space c then lstrip rest else line
  end.

Definition rstrip (line : list ascii) : list ascii := reverse (lstrip (reverse line)).

Definition strip (line : list ascii) : list ascii := rstrip (lstrip line).

(** [line[:line.find('#')]] when there is a [#], [line] otherwise *)
Definition before_hash (line : list ascii) : list ascii :=
  fst (span (fun c => negb (Ascii.eqb c "#")) line).

(** What one line adds to [reqs]. *)
Definition requirement (line : list ascii) : option string :=
  match strip (before_hash line) with
  | [] => None
  | c :: rest => Some (string_of_list_ascii (c :: rest))
  end.

Definition requirements (contents : string) : list string :=
  omap requirement (file_lines (list_ascii_of_string contents)).

(** [open] fails on a file that is not there. *)
Inductive io_error : Type := IOError (filename : string).

Definition parse_requirements (files : string -> option string) (filename : string)
  : io_error + list string :=
  match files filename with
  | None => inl (IOError filename)
  | Some contents => inr (requirements contents)
  end.

(** A requirements file with one requirement to the line. *)
Definition one_per_line (reqs : list string) : string :=
  fold_right (fun r rest => r +:+ newline +:+ rest) "" reqs.


(** ** Vocabulary of the further properties *)

(** The address check, read as a shape: four groups, an optional port,
    an optional final newline. *)
Definition dotted_chars (g1 g2 g3 g4 : list ascii) (port : option (list ascii))
  (final_newline : bool) : list ascii :=
  g1 ++ "."%char :: g2 ++ "."%char :: g3 ++ "."%char :: g4 ++
  match port with
  | Some p => ":"%char :: p
  | None => []
  end ++ (if final_newline then ["010"%char] else []).

(** Events that ask for no machine to be removed. *)
Definition removes (argv : list string) : bool :=
  match argv with
  | "docker-machine" :: "rm" :: _ => true
  | _ => false
  end.

Definition keeps (e : event) : Prop :=
  match e with
  | CheckCall argv _ _ | CheckOutput argv _ _ _ | Popen argv => removes argv = false
  | _ => True
  end.


(** A requirement as [parse_requirements] returns them. *)
Definition clean (r : string) : Prop :=
  let l := list_ascii_of_string r in
  l <> [] /\
  Forall (fun c => c <> "#"%char /\ c <> "010"%char) l /\
  (forall c, head l = Some c -> is_space c = false) /\
  (forall c, last l = Some c -> is_space c = false).

(** * Properties *)

(** ** The address check *)

Example looks_like_ip_literal : looks_like_ip "10.0.0.5" = true.
Proof. reflexivity. Qed.
Example looks_like_ip_port : looks_like_ip "10.0.0.5:8500" = true.
Proof. reflexivity. Qed.
Example looks_like_ip_name : looks_like_ip "consul" = false.
Proof. reflexivity. Qed.
Example looks_like_ip_long_group : looks_like_ip "1.2.3.4567" = false.
Proof. reflexivity. Qed.
Example looks_like_ip_empty_port : looks_like_ip "1.2.3.4:" = false.
Proof. reflexivity. Qed.
Example looks_like_ip_long_port : looks_like_ip "1.2.3.4:123456" = false.
Proof. reflexivity. Qed.
Example looks_like_ip_final_newline :
  looks_like_ip ("1.2.3.4" +:+ newline) = true.
Proof. reflexivity. Qed.

Module ReFacts.
Import Re.

Lemma accepts_Never s : accepts Never s = false.
Proof. induction s; simpl; auto. Qed.

Lemma accepts_Alt r1 r2 s :
  accepts (Alt r1 r2) s = accepts r1 s || accepts r2 s.
Proof.
  revert r1 r2. induction s as [|c s IH]; intros r1 r2; simpl; [reflexivity|].
  apply IH.
Qed.

Lemma accepts_Cat_nullable r1 r2 s :
  nullable r1 = true -> accepts r2 s = true -> accepts (Cat r1 r2) s = true.
Proof.
  intros Hn Hs. destruct s as [|c s]; simpl in *.
  - rewrite Hn, Hs. reflexivity.
  - rewrite Hn, accepts_Alt, Hs. apply orb_true_r.
Qed.

Lemma accepts_Cat r1 r2 s1 s2 :
  accepts r1 s1 = true -> accepts r2 s2 = true ->
  accepts (Cat r1 r2) (s1 ++ s2) = true.
Proof.
  revert r1. induction s1 as [|c s1 IH]; intros r1 H1 H2; simpl in *.
  - apply accepts_Cat_nullable; assumption.
  - destruct (nullable r1).
    + rewrite accepts_Alt, IH by assumption. reflexivity.
    + apply IH; assumption.
Qed.

Lemma accepts_Chr p c : p c = true -> accepts (Chr p) [c] = true.
Proof. intros H. simpl. rewrite H. reflexivity. Qed.

Lemma accepts_lit c : accepts (lit c) [c] = true.
Proof. apply accepts_Chr. apply Ascii.eqb_refl. Qed.

Lemma accepts_opt_nil r : accepts (opt r) [] = true.
Proof. simpl. apply orb_true_r. Qed.

Lemma accepts_opt r s : accepts r s = true -> accepts (opt r) s = true.
Proof. intros H. unfold opt. rewrite accepts_Alt, H. reflexivity. Qed.

Lemma accepts_upto p n s :
  Forall (fun c => p c = true) s -> (length s <= n)%nat ->
  accepts (upto n (Chr p)) s = true.
Proof.
  revert s. induction n as [|n IH]; intros s Hs Hlen.
  - destruct s; simpl in *; [reflexivity | lia].
  - destruct s as [|c s]; [apply accepts_opt_nil|].
    cbn [upto]. apply accepts_opt.
    inversion Hs; subst.
    change (c :: s) with ([c] ++ s). apply accepts_Cat.
    + apply accepts_Chr; assumption.
    + apply IH; [assumption | simpl in Hlen; lia].
Qed.

Lemma accepts_rep1 n s :
  digits 1 n s -> accepts (rep1 n digit) s = true.
Proof.
  intros [Hs Hlen]. destruct s as [|c s]; [simpl in Hlen; lia|].
  inversion Hs; subst. unfold rep1, digit.
  change (c :: s) with ([c] ++ s). apply accepts_Cat.
  - apply accepts_Chr; assumption.
  - apply accepts_upto; [assumption | simpl in Hlen; lia].
Qed.

End ReFacts.

(** The check accepts four groups of one to three digits and an optional
    port of one to five, whatever numbers they write. *)
Lemma looks_like_ip_dotted g1 g2 g3 g4 port :
  digits 1 3 g1 -> digits 1 3 g2 -> digits 1 3 g3 -> digits 1 3 g4 ->
  match port with Some p => digits 1 5 p | None => True end ->
  looks_like_ip (dotted g1 g2 g3 g4 port) = true.
Proof.
  intros H1 H2 H3 H4 Hp. unfold looks_like_ip, dotted, ip_pattern.
  rewrite list_ascii_of_string_of_list_ascii.
  apply ReFacts.accepts_Cat; [apply ReFacts.accepts_rep1; assumption|].
  change ("."%char :: g2 ++ ?x) with (["."%char] ++ g2 ++ x).
  apply ReFacts.accepts_Cat; [apply ReFacts.accepts_lit|].
  apply ReFacts.accepts_Cat; [apply ReFacts.accepts_rep1; assumption|].
  change ("."%char :: g3 ++ ?x) with (["."%char] ++ g3 ++ x).
  apply ReFacts.accepts_Cat; [apply ReFacts.accepts_lit|].
  apply ReFacts.accepts_Cat; [apply ReFacts.accepts_rep1; assumption|].
  change ("."%char :: g4 ++ ?x) with (["."%char] ++ g4 ++ x).
  apply ReFacts.accepts_Cat; [apply ReFacts.accepts_lit|].
  apply ReFacts.accepts_Cat; [apply ReFacts.accepts_rep1; assumption|].
  destruct port as [p|].
  - rewrite <- (app_nil_r (":"%char :: p)).
    apply ReFacts.accepts_Cat; [|reflexivity].
    apply ReFacts.accepts_opt.
    change (":"%char :: p) with ([":"%char] ++ p).
    apply ReFacts.accepts_Cat; [apply ReFacts.accepts_lit|].
    apply ReFacts.accepts_rep1; assumption.
  - reflexivity.
Qed.

(** ** The commands as they are written *)

Section AsWritten.

Variable host : Host.

(** [get_swarm_env] asks for the configuration once and raises: the error
    of the query, or the [NameError] of line 138. *)
Lemma get_swarm_env_as_written name h :
  get_swarm_env host name h =
    (inl (swarm_env_error name (fst (run host h (docker_machine_env name) None))),
     h ++ [CheckOutput (docker_machine_env name) None
             (fst (run host h (docker_machine_env name) None))
             (snd (run host h (docker_machine_env name) None))]).
Proof.
  unfold get_swarm_env, bind, check_output, unbound, raise, swarm_env_error.
  destruct (run host h (docker_machine_env name) None) as [c out]. simpl.
  destruct (c =? 0); reflexivity.
Qed.

(** [get_ip_from_name] asks the inventory once and raises: the error of
    the query, or the [NameError] of line 152. *)
Lemma get_ip_from_name_as_written name private h :
  get_ip_from_name host name private h =
    (inl (inventory_error (fst (run host h describe_instances None))),
     h ++ [CheckOutput describe_instances None
             (fst (run host h describe_instances None))
             (snd (run host h describe_instances None))]).
Proof.
  unfold get_ip_from_name, bind, check_output, unbound, raise, inventory_error.
  destruct (run host h describe_instances None) as [c out]. simpl.
  destruct (c =? 0); reflexivity.
Qed.

(** Lines 84-88: a literal is kept, anything else stops at line 87. *)
Lemma create_cluster_discovery_as_written a :
  exec (create_cluster_discovery a) =
    (if looks_like_ip (consul a) then inr (consul a)
     else inl (NameError "get_consul_ip"),
     [creating a]).
Proof.
  unfold exec, create_cluster_discovery, bind, echo, unbound, raise, ret, creating.
  simpl. destruct (looks_like_ip (consul a)); reflexivity.
Qed.

(** Lines 90-126 stop at line 91 or at line 102, and add nothing to the
    history. *)
Lemma create_cluster_machines_as_written a consul h :
  create_cluster_machines host a consul h =
    (inl (if given (docker_compose_file a) then NameError "master_instance_type"
          else TypeError),
     h).
Proof.
  unfold create_cluster_machines, bind, refused, unbound, raise, ret, given.
  destruct (docker_compose_file a) as [[|c f]|]; reflexivity.
Qed.

Lemma create_cluster_as_written a :
  exec (create_cluster host a) = (inl (create_error a), [creating a]).
Proof.
  pose proof (create_cluster_discovery_as_written a) as D.
  unfold exec in *. unfold create_cluster, bind. rewrite D.
  unfold create_error. destruct (looks_like_ip (consul a)); [|reflexivity].
  apply create_cluster_machines_as_written.
Qed.

Lemma test_spark_cluster_as_written prefix :
  exec (test_spark_cluster host prefix) =
    (inl (swarm_env_error (master_name prefix)
            (fst (run host [] (docker_machine_env (master_name prefix)) None))),
     [CheckOutput (docker_machine_env (master_name prefix)) None
        (fst (run host [] (docker_machine_env (master_name prefix)) None))
        (snd (run host [] (docker_machine_env (master_name prefix)) None))]).
Proof.
  unfold exec, test_spark_cluster, bind. cbv zeta.
  rewrite get_swarm_env_as_written. reflexivity.
Qed.

(** Lines 169-176, from any history and for any value of [swarm_env]. *)
Lemma test_spark_cluster_submit_as_written name swarm_env h :
  let h1 := h ++ [Echo ("Submitting job to " +:+ name)] in
  let c := fst (run host h1 spark_submit None) in
  let output := snd (run host h1 spark_submit None) in
  test_spark_cluster_submit host name swarm_env h =
    if c =? 0 then
      (inr tt, (h1 ++ [CheckOutput spark_submit None c output]) ++ [Echo output])
    else
      (inl (CalledProcessError c spark_submit),
       h1 ++ [CheckOutput spark_submit None c output]).
Proof.
  cbv zeta. unfold test_spark_cluster_submit, bind, echo, check_output.
  destruct (run host (h ++ [Echo ("Submitting job to " +:+ name)]) spark_submit None)
    as [c out]. simpl.
  destruct (c =? 0); reflexivity.
Qed.

End AsWritten.

(** The last argument of a worker request is the name of its machine. *)
Lemma worker_create_last a consul i :
  last (worker_create a consul i) = Some (worker_name (cluster_prefix a) i).
Proof. reflexivity. Qed.

Lemma worker_requests_names a consul indices :
  map last (worker_requests a consul indices) =
    map (fun i => Some (worker_name (cluster_prefix a) i)) indices.
Proof.
  unfold worker_requests. rewrite List.map_map. apply List.map_ext.
  intros i. apply worker_create_last.
Qed.

(** One more inventory query in the history. *)
Lemma inventory_queries_snoc h c out :
  inventory_queries (h ++ [CheckOutput describe_instances None c out]) =
    S (inventory_queries h).
Proof.
  unfold inventory_queries, check_outputs.
  rewrite omap_app, filter_app, length_app. simpl. lia.
Qed.

(** ** [create]: the workers *)

(** C1.  For the numbers the [range] of line 119 is to give, lines
    113-118 build one request to the number, in order, each for the machine
    [prefix-worker-number].  No run of [create] issues any of them: every
    run ends in an error before line 113, having started no process and
    waited on none, and no outcome of a worker is part of what it
    returns.  So it is for three workers and a literal address. *)
Theorem create_cluster_starts_no_worker :
  (forall a consul indices,
     length (worker_requests a consul indices) = length indices /\
     map last (worker_requests a consul indices) =
       map (fun i => Some (worker_name (cluster_prefix a) i)) indices) /\
  (forall host a,
     popens (snd (exec (create_cluster host a))) = [] /\
     waits (snd (exec (create_cluster host a))) = [] /\
     fst (exec (create_cluster host a)) = inl (create_error a)) /\
  exec (create_cluster (lab 0 (always "running") all_up [])
                       (spark "3" "10.0.0.5:8500" (Some "docker-compose.yml"))) =
    (inl (NameError "master_instance_type"),
     [Echo "Creating a spark cluster with 3 workers..."]).
Proof.
  split; [|split].
  - intros a consul indices. split; [|apply worker_requests_names].
    unfold worker_requests. apply length_map.
  - intros host a. rewrite create_cluster_as_written. repeat split.
  - rewrite create_cluster_as_written. reflexivity.
Qed.

(** ** [create]: the scale request *)

(** C2.  The request of lines 125-126 is a scale request whose counts are
    the literals [master=1] and [worker=10], whatever the compose file;
    and no run of [create] issues a scale request, or any request through
    [check_call]: every run ends in an error before.  So it is for three
    workers and a literal address. *)
Theorem create_cluster_issues_no_scale :
  (forall file,
     is_scale_request (compose_scale file) = true /\
     nth_error (compose_scale file) 4 = Some "master=1" /\
     nth_error (compose_scale file) 5 = Some "worker=10") /\
  (forall host a,
     scale_requests (snd (exec (create_cluster host a))) = [] /\
     check_calls (snd (exec (create_cluster host a))) = [] /\
     fst (exec (create_cluster host a)) = inl (create_error a)) /\
  scale_requests
    (snd (exec (create_cluster (lab 0 (always "running") all_up [])
                  (spark "3" "10.0.0.5:8500" (Some "docker-compose.yml"))))) = [].
Proof.
  split; [|split].
  - intros file. repeat split.
  - intros host a. rewrite create_cluster_as_written. repeat split.
  - rewrite create_cluster_as_written. reflexivity.
Qed.

(** ** [create]: a master that cannot be created *)

(** C6.  A run of [create] in which the master cannot be created aborts
    and issues no worker request, since every run does: each ends in an
    error, having started no process.  (As the module is written the run
    ends while the request for the master is built: no run issues it, so
    that none gets as far as a refusal of the provider.) *)
Theorem create_cluster_master_failure host a :
  popens (snd (exec (create_cluster host a))) = [] /\
  check_calls (snd (exec (create_cluster host a))) = [] /\
  fst (exec (create_cluster host a)) = inl (create_error a) /\
  forall outcome, fst (exec (create_cluster host a)) <> inr outcome.
Proof.
  rewrite create_cluster_as_written. split; [reflexivity|]. split; [reflexivity|].
  split; [reflexivity|]. intros outcome. discriminate.
Qed.

(** ** [create]: workers that fail *)

(** C7.  No run of [create] waits on a worker or goes on to the scale
    step: every run ends in an error with no process started, none waited
    on and no scale request.  So it is on a host where the second of three
    workers would fail. *)
Theorem create_cluster_waits_for_none :
  (forall host a,
     let t := snd (exec (create_cluster host a)) in
     popens t = [] /\ waits t = [] /\ scale_requests t = [] /\
     exists e, fst (exec (create_cluster host a)) = inl e) /\
  exec (create_cluster (lab 0 (always "running") (down ["spark-worker-1"]) [])
                       (spark "3" "10.0.0.5:8500" (Some "docker-compose.yml"))) =
    (inl (NameError "master_instance_type"),
     [Echo "Creating a spark cluster with 3 workers..."]).
Proof.
  split.
  - intros host a. cbv zeta. rewrite create_cluster_as_written.
    split; [reflexivity|]. split; [reflexivity|]. split; [reflexivity|].
    exists (create_error a). reflexivity.
  - rewrite create_cluster_as_written. reflexivity.
Qed.

(** ** [create]: the discovery address *)

(** C5.  For a reference the check takes for a literal, lines 84-88 look
    nothing up and go on with the reference itself, and the options of
    lines 95-96, which every machine request carries, name it verbatim.
    For any other reference the run ends at line 87, where the name
    [get_consul_ip] is bound to nothing: the reference is not resolved,
    and nothing follows. *)
Theorem create_cluster_discovery_reference host a :
  (looks_like_ip (consul a) = true ->
   exec (create_cluster_discovery a) = (inr (consul a), [creating a]) /\
   nth_error (swarm_options a (consul a)) 1 =
     Some ("--swarm-discovery=consul://" +:+ consul a +:+ ":8500") /\
   nth_error (swarm_options a (consul a)) 2 =
     Some ("--engine-opt=cluster-store=consul://" +:+ consul a +:+ ":8500") /\
   (forall master_instance_type,
      incl (swarm_options a (consul a))
           (master_create a (consul a) master_instance_type)) /\
   (forall i, incl (swarm_options a (consul a)) (worker_create a (consul a) i)) /\
   fst (exec (create_cluster host a)) <> inl (NameError "get_consul_ip")) /\
  (looks_like_ip (consul a) = false ->
   exec (create_cluster_discovery a) =
     (inl (NameError "get_consul_ip"), [creating a]) /\
   exec (create_cluster host a) = (inl (NameError "get_consul_ip"), [creating a])).
Proof.
  rewrite create_cluster_discovery_as_written, create_cluster_as_written.
  unfold create_error. split; intros L; rewrite L.
  - split; [reflexivity|]. split; [reflexivity|]. split; [reflexivity|].
    split; [|split].
    + intros m x Hx. unfold master_create.
      apply in_or_app. right. apply in_or_app. right. apply in_or_app. left. exact Hx.
    + intros i x Hx. unfold worker_create.
      apply in_or_app. right. apply in_or_app. right. apply in_or_app. left. exact Hx.
    + simpl. destruct (given (docker_compose_file a)); discriminate.
  - split; reflexivity.
Qed.

Lemma create_cluster_discovery_reference_witness :
  exec (create_cluster (lab 0 (always "running") all_up [])
                       (spark "3" "consul-box" None)) =
    (inl (NameError "get_consul_ip"),
     [Echo "Creating a spark cluster with 3 workers..."]).
Proof.
  apply (proj2 (create_cluster_discovery_reference
                  (lab 0 (always "running") all_up [])
                  (spark "3" "consul-box" None))).
  reflexivity.
Defined.

(** C10.  The check accepts four groups of one to three digits and an
    optional port of one to five, whatever numbers they write; so it
    accepts 999.999.999.999:99999, no group of which is at most 255 and
    whose port is above 65535.  With that reference lines 84-88 look
    nothing up and go on with the string itself, and the option of line 95
    names it verbatim; the run then ends in an error at line 91 or 102,
    having sent it nowhere. *)
Theorem looks_like_ip_unchecked :
  (forall g1 g2 g3 g4 port,
     digits 1 3 g1 -> digits 1 3 g2 -> digits 1 3 g3 -> digits 1 3 g4 ->
     match port with Some p => digits 1 5 p | None => True end ->
     looks_like_ip (dotted g1 g2 g3 g4 port) = true) /\
  (let nines := list_ascii_of_string "999" in
   let port := list_ascii_of_string "99999" in
   let s := "999.999.999.999:99999" in
   s = dotted nines nines nines nines (Some port) /\
   (255 < value nines)%N /\ (65535 < value port)%N /\
   looks_like_ip s = true /\
   forall host a,
     consul a = s ->
     exec (create_cluster_discovery a) = (inr s, [creating a]) /\
     nth_error (swarm_options a s) 1 =
       Some "--swarm-discovery=consul://999.999.999.999:99999:8500" /\
     exec (create_cluster host a) =
       (inl (if given (docker_compose_file a) then NameError "master_instance_type"
             else TypeError),
        [creating a])).
Proof.
  split; [exact looks_like_ip_dotted|].
  cbv zeta. split; [reflexivity|]. split; [reflexivity|].
  split; [reflexivity|]. split; [reflexivity|].
  intros host a Ha.
  assert (looks_like_ip (consul a) = true) as L by (rewrite Ha; reflexivity).
  rewrite create_cluster_discovery_as_written, create_cluster_as_written.
  unfold create_error. rewrite L, Ha. repeat split.
Qed.

Lemma looks_like_ip_unchecked_witness :
  looks_like_ip "256.0.0.300" = true /\
  exec (create_cluster (lab 0 (always "running") all_up [])
                       (spark "2" "999.999.999.999:99999" None)) =
    (inl TypeError, [Echo "Creating a spark cluster with 2 workers..."]).
Proof.
  split.
  - apply (proj1 looks_like_ip_unchecked
             (list_ascii_of_string "256") (list_ascii_of_string "0")
             (list_ascii_of_string "0") (list_ascii_of_string "300") None);
      try (split; [repeat constructor | simpl; lia]).
    exact I.
  - destruct looks_like_ip_unchecked as (_ & _ & _ & _ & _ & H).
    apply (H (lab 0 (always "running") all_up [])
             (spark "2" "999.999.999.999:99999" None)).
    reflexivity.
Defined.

(** ** Address resolution *)

(** C3, as the module has it.  [get_ip_from_name] asks the inventory once,
    whatever the name, the field asked for and the answer: its run adds
    the one query to the history and nothing else, and a query that fails
    is raised at once. *)
Theorem get_ip_from_name_asks_once host name private h :
  let c := fst (run host h describe_instances None) in
  let out := snd (run host h describe_instances None) in
  snd (get_ip_from_name host name private h) =
    h ++ [CheckOutput describe_instances None c out] /\
  inventory_queries (snd (get_ip_from_name host name private h)) =
    S (inventory_queries h) /\
  (c <> 0 ->
   fst (get_ip_from_name host name private h) =
     inl (CalledProcessError c describe_instances)).
Proof.
  cbv zeta. rewrite get_ip_from_name_as_written. simpl fst. simpl snd.
  split; [reflexivity|]. split; [apply inventory_queries_snoc|].
  intros N. apply Z.eqb_neq in N. unfold inventory_error. rewrite N. reflexivity.
Qed.

Lemma get_ip_from_name_asks_once_witness :
  fst (exec (get_ip_from_name (lab_status 255) "spark-master" true)) =
    inl (CalledProcessError 255 describe_instances).
Proof.
  apply (proj2 (proj2 (get_ip_from_name_asks_once
                         (lab_status 255) "spark-master" true []))).
  discriminate.
Defined.

(** C3, as the design document has it, does not hold.  On a host whose
    inventory shows the master pending at the first query and running
    from the second, resolution asks once and ends in an error: it does
    not ask again.  On a host where the master is running it asks once
    and ends in an error as well: no address is returned. *)
Lemma get_ip_from_name_never_retries :
  exec (get_ip_from_name (lab 0 coming_up all_up []) "spark-master" false) =
    (inl (NameError "json"),
     [CheckOutput describe_instances None 0 (aws_document "pending")]) /\
  exec (get_ip_from_name (lab 0 (always "running") all_up []) "spark-master" false) =
    (inl (NameError "json"),
     [CheckOutput describe_instances None 0 (aws_document "running")]).
Proof. split; vm_compute; reflexivity. Qed.

(** ** [destroy] *)

(** C8, as the module has it.  [destroy_consul_box] issues one removal
    request and completes without error exactly when the request ends with
    status zero; any other status is raised as the error of that request. *)
Theorem destroy_consul_box_status host name h :
  let c := fst (run host h (docker_machine_rm name) None) in
  snd (destroy_consul_box host name h) =
    h ++ [CheckCall (docker_machine_rm name) None c] /\
  (fst (destroy_consul_box host name h) = inr tt <-> c = 0) /\
  (c <> 0 ->
   fst (destroy_consul_box host name h) =
     inl (CalledProcessError c (docker_machine_rm name))).
Proof.
  cbv zeta. unfold destroy_consul_box, check_call. simpl.
  destruct (Z.eqb_spec (fst (run host h (docker_machine_rm name) None)) 0) as [E|E].
  - repeat split; auto. intros N. contradiction.
  - repeat split; auto; intros N; solve [discriminate | contradiction].
Qed.

Lemma destroy_consul_box_status_witness :
  fst (exec (destroy_consul_box (lab 0 (always "running") all_up ["consul-box"])
                                "consul-box")) = inr tt.
Proof.
  apply (proj1 (proj2 (destroy_consul_box_status
                         (lab 0 (always "running") all_up ["consul-box"])
                         "consul-box" []))).
  reflexivity.
Defined.

(** C8, as the design document has it, does not hold: on a host whose
    removal program ends with status 1 for a machine it does not know,
    destroying such a machine raises the error. *)
Lemma destroy_consul_box_unknown_machine :
  exec (destroy_consul_box (lab 0 (always "running") all_up ["consul-box"]) "ghost") =
    (inl (CalledProcessError 1 (docker_machine_rm "ghost")),
     [CheckCall (docker_machine_rm "ghost") None 1]).
Proof. vm_compute. reflexivity. Qed.

(** ** The swarm environment *)

(** C4.  [get_swarm_env] returns no mapping: whatever the configuration of
    the machine and the process environment, its run is the one query
    followed by an error, that of the query or the [NameError] of line
    138; and no run of [create] passes an environment to anything.  So it
    is on a host whose configuration has three entries. *)
Theorem get_swarm_env_never_returns :
  (forall host name h,
     let c := fst (run host h (docker_machine_env name) None) in
     let out := snd (run host h (docker_machine_env name) None) in
     get_swarm_env host name h =
       (inl (swarm_env_error name c),
        h ++ [CheckOutput (docker_machine_env name) None c out])) /\
  (forall host name h env, fst (get_swarm_env host name h) <> inr env) /\
  (forall host a, check_calls (snd (exec (create_cluster host a))) = []) /\
  exec (get_swarm_env (lab 0 (always "running") all_up []) "spark-master") =
    (inl (NameError "env_vars"),
     [CheckOutput (docker_machine_env "spark-master") None 0 machine_env]).
Proof.
  split; [|split; [|split]].
  - intros host name h. cbv zeta. apply get_swarm_env_as_written.
  - intros host name h env. rewrite get_swarm_env_as_written. discriminate.
  - intros host a. rewrite create_cluster_as_written. reflexivity.
  - unfold exec. rewrite get_swarm_env_as_written. reflexivity.
Qed.

(** ** [test] *)

(** C9.  A run of [test] is the one query for the configuration of the
    master, followed by an error: nothing is submitted and nothing is
    printed.  And lines 169-176, whatever the value of [swarm_env] they
    are reached with, give the submission no environment of its own: it
    inherits that of the process.  So it is on a host where every program
    succeeds. *)
Theorem test_spark_cluster_submits_nothing :
  (forall host prefix,
     let t := snd (exec (test_spark_cluster host prefix)) in
     submissions t = [] /\ echoes t = [] /\ length t = 1%nat /\
     exists e, fst (exec (test_spark_cluster host prefix)) = inl e) /\
  (forall host name swarm_env h,
     Forall (fun e => match e with
                      | CheckOutput argv env _ _ => env = None
                      | CheckCall _ _ _ => False
                      | _ => True
                      end)
            (drop (length h) (snd (test_spark_cluster_submit host name swarm_env h))) /\
     test_spark_cluster_submit host name swarm_env h =
       test_spark_cluster_submit host name None h) /\
  exec (test_spark_cluster (lab 0 (always "running") all_up []) "spark") =
    (inl (NameError "env_vars"),
     [CheckOutput (docker_machine_env "spark-master") None 0 machine_env]).
Proof.
  split; [|split].
  - intros host prefix. cbv zeta. rewrite test_spark_cluster_as_written.
    split; [reflexivity|]. split; [reflexivity|]. split; [reflexivity|].
    eexists. reflexivity.
  - intros host name swarm_env h. split; [|reflexivity].
    pose proof (test_spark_cluster_submit_as_written host name swarm_env h) as E.
    cbv zeta in E. rewrite E.
    destruct (fst (run host (h ++ [Echo ("Submitting job to " +:+ name)])
                       spark_submit None) =? 0); simpl snd;
      rewrite <- ?app_assoc; rewrite drop_app_length; repeat constructor.
  - rewrite test_spark_cluster_as_written. reflexivity.
Qed.

(** * Further properties *)

(** ** [parse_requirements] *)

Section Requirements.

Implicit Types (l line body : list ascii) (c : ascii).

Lemma span_app p l : fst (span p l) ++ snd (span p l) = l.
Proof.
  induction l as [|c l IH]; simpl; [reflexivity|].
  destruct (p c); [|reflexivity].
  destruct (span p l) as [run rest]. simpl in *. rewrite IH. reflexivity.
Qed.

Lemma span_fst_Forall p l : Forall (fun c => p c = true) (fst (span p l)).
Proof.
  induction l as [|c l IH]; simpl; [constructor|].
  destruct (p c) eqn:E; [|constructor].
  destruct (span p l) as [run rest]. simpl in *. constructor; assumption.
Qed.

Lemma span_all p l : Forall (fun c => p c = true) l -> span p l = (l, []).
Proof.
  induction 1 as [|c l Hc _ IH]; simpl; [reflexivity|].
  rewrite Hc, IH. reflexivity.
Qed.

Lemma lstrip_suffix l : exists spaces, l = spaces ++ lstrip l.
Proof.
  induction l as [|c l [sp IH]]; simpl; [exists []; reflexivity|].
  destruct (is_space c); [|exists []; reflexivity].
  exists (c :: sp). simpl. rewrite <- IH. reflexivity.
Qed.

Lemma lstrip_head l c : head (lstrip l) = Some c -> is_space c = false.
Proof.
  induction l as [|d l IH]; simpl; [discriminate|].
  destruct (is_space d) eqn:E; [exact IH|].
  simpl. intros [= <-]. exact E.
Qed.

Lemma lstrip_keeps l :
  (forall c, head l = Some c -> is_space c = false) -> lstrip l = l.
Proof.
  destruct l as [|c l]; simpl; [reflexivity|].
  intros H. rewrite (H c eq_refl). reflexivity.
Qed.

Lemma lstrip_Forall (P : ascii -> Prop) l : Forall P l -> Forall P (lstrip l).
Proof.
  intros F. destruct (lstrip_suffix l) as [sp E]. rewrite E in F.
  apply Forall_app in F. tauto.
Qed.

Lemma strip_Forall (P : ascii -> Prop) l : Forall P l -> Forall P (strip l).
Proof.
  intros F. unfold strip, rstrip.
  apply Forall_reverse, lstrip_Forall, Forall_reverse, lstrip_Forall, F.
Qed.

Lemma strip_last l c : last (strip l) = Some c -> is_space c = false.
Proof.
  unfold strip, rstrip. rewrite last_reverse. apply lstrip_head.
Qed.

Lemma strip_head l c : head (strip l) = Some c -> is_space c = false.
Proof.
  unfold strip, rstrip. rewrite head_reverse.
  destruct (lstrip_suffix (reverse (lstrip l))) as [sp E].
  intros L. apply (lstrip_head l).
  rewrite <- last_reverse, E, last_app, L. reflexivity.
Qed.

Lemma lstrip_snoc_space l c :
  is_space c = true ->
  lstrip (l ++ [c]) = match lstrip l with [] => [] | _ => lstrip l ++ [c] end.
Proof.
  intros Hc. induction l as [|d l IH]; simpl; [rewrite Hc; reflexivity|].
  destruct (is_space d); [exact IH | reflexivity].
Qed.

(** A final space, the newline of a line in particular, is nothing to
    [strip]. *)
Lemma strip_snoc_space l c : is_space c = true -> strip (l ++ [c]) = strip l.
Proof.
  intros Hc. unfold strip, rstrip. rewrite (lstrip_snoc_space l c Hc).
  destruct (lstrip l) as [|d k] eqn:E; [reflexivity|].
  rewrite reverse_snoc. simpl. rewrite Hc. reflexivity.
Qed.

Lemma strip_keeps l :
  (forall c, head l = Some c -> is_space c = false) ->
  (forall c, last l = Some c -> is_space c = false) ->
  strip l = l.
Proof.
  intros Hh Hl. unfold strip, rstrip. rewrite (lstrip_keeps l Hh).
  rewrite lstrip_keeps, reverse_involutive; [reflexivity|].
  intros c. rewrite head_reverse. apply Hl.
Qed.

(** A line of a file is a body without newline, then a newline or, at
    the end of the file, nothing. *)
Lemma file_lines_shape contents :
  Forall (fun line => exists body, Forall (fun c => c <> "010"%char) body /\
                                   (line = body \/ line = body ++ ["010"%char]))
         (file_lines contents).
Proof.
  induction contents as [|c rest IH]; simpl; [constructor|].
  destruct (Ascii.eqb_spec c "010") as [->|N].
  - constructor; [|exact IH]. exists []. split; [constructor | right; reflexivity].
  - destruct (file_lines rest) as [|line lines]; constructor.
    + exists [c]. split; [repeat constructor; assumption | left; reflexivity].
    + constructor.
    + inversion IH as [|? ? (body & Fb & Hb) _]; subst.
      exists (c :: body). split; [constructor; assumption|].
      destruct Hb as [->| ->]; [left | right]; reflexivity.
    + inversion IH; assumption.
Qed.

Lemma before_hash_Forall (P : ascii -> Prop) l : Forall P l -> Forall P (before_hash l).
Proof.
  intros F. unfold before_hash. rewrite <- (span_app (fun c => negb (Ascii.eqb c "#")) l) in F.
  apply Forall_app in F. tauto.
Qed.

Lemma before_hash_no_hash l : Forall (fun c => c <> "#"%char) (before_hash l).
Proof.
  unfold before_hash. eapply Forall_impl; [apply span_fst_Forall|].
  intros c Hc ->. discriminate.
Qed.

Lemma before_hash_snoc body c :
  c <> "#"%char ->
  before_hash (body ++ [c]) = before_hash body \/
  before_hash (body ++ [c]) = before_hash body ++ [c].
Proof.
  intros Nc. unfold before_hash. induction body as [|d body IH]; simpl.
  - destruct (Ascii.eqb_spec c "#"); [contradiction | right; reflexivity].
  - destruct (negb (Ascii.eqb d "#")); [|left; reflexivity].
    destruct (span _ (body ++ [c])) as [r1 s1], (span _ body) as [r2 s2].
    simpl in *. destruct IH as [->| ->]; [left | right]; reflexivity.
Qed.

(** The newline of a line does not show in what the line adds. *)
Lemma requirement_newline body :
  requirement (body ++ ["010"%char]) = requirement body.
Proof.
  unfold requirement.
  destruct (before_hash_snoc body "010"%char) as [->| ->];
    [discriminate | reflexivity |].
  rewrite strip_snoc_space; reflexivity.
Qed.

Lemma requirement_clean body r :
  Forall (fun c => c <> "010"%char) body ->
  requirement body = Some r -> clean r.
Proof.
  unfold requirement. intros Fb.
  destruct (strip (before_hash body)) as [|c l] eqn:E; [discriminate|].
  intros [= <-]. unfold clean. cbv zeta.
  change (String c (string_of_list_ascii l)) with (string_of_list_ascii (c :: l)).
  rewrite list_ascii_of_string_of_list_ascii, <- E.
  split; [rewrite E; discriminate|]. split; [|split].
  - apply strip_Forall, Forall_and. split.
    + apply before_hash_no_hash.
    + apply before_hash_Forall. exact Fb.
  - apply strip_head.
  - apply strip_last.
Qed.

Lemma requirements_clean contents : Forall clean (requirements contents).
Proof.
  unfold requirements.
  pose proof (file_lines_shape (list_ascii_of_string contents)) as S.
  induction S as [|line lines (body & Fb & Hb) _ IH]; simpl; [constructor|].
  destruct (requirement line) as [r|] eqn:R; simpl; [|exact IH].
  constructor; [|exact IH].
  destruct Hb as [->| ->].
  - apply (requirement_clean body); assumption.
  - rewrite requirement_newline in R. apply (requirement_clean body); assumption.
Qed.

Lemma list_ascii_of_string_app s1 s2 :
  list_ascii_of_string (s1 +:+ s2) = list_ascii_of_string s1 ++ list_ascii_of_string s2.
Proof. induction s1 as [|c s1 IH]; simpl; [|rewrite IH]; reflexivity. Qed.

Lemma file_lines_line body rest :
  Forall (fun c => c <> "010"%char) body ->
  file_lines (body ++ "010"%char :: rest) = (body ++ ["010"%char]) :: file_lines rest.
Proof.
  induction 1 as [|c body Nc _ IH]; simpl; [reflexivity|].
  destruct (Ascii.eqb_spec c "010"); [contradiction|]. rewrite IH. reflexivity.
Qed.

Lemma requirement_of_clean r :
  clean r -> requirement (list_ascii_of_string r) = Some r.
Proof.
  unfold clean. cbv zeta. intros (Ne & F & Hh & Hl). unfold requirement.
  assert (before_hash (list_ascii_of_string r) = list_ascii_of_string r) as ->.
  { unfold before_hash. rewrite span_all; [reflexivity|].
    eapply Forall_impl; [exact F|]. intros c [Nh _]. simpl in *.
    destruct (Ascii.eqb_spec c "#"); [contradiction | reflexivity]. }
  rewrite (strip_keeps _ Hh Hl).
  destruct (list_ascii_of_string r) as [|c l] eqn:E; [contradiction|].
  rewrite <- E, string_of_list_ascii_of_string. reflexivity.
Qed.

Lemma requirements_one_per_line reqs :
  Forall clean reqs -> requirements (one_per_line reqs) = reqs.
Proof.
  unfold requirements. induction 1 as [|r reqs Hr _ IH]; [reflexivity|].
  simpl one_per_line. rewrite !list_ascii_of_string_app. simpl app.
  rewrite file_lines_line; [|].
  - simpl. rewrite requirement_newline, (requirement_of_clean r Hr). simpl.
    f_equal. exact IH.
  - destruct Hr as (_ & F & _). eapply Forall_impl; [exact F|]. intros c [_ N]. exact N.
Qed.

End Requirements.

(** What [parse_requirements] returns can be put on a line each: every
    requirement is not empty, has neither a [#] nor a newline in it, and
    neither starts nor ends with a space. *)
Theorem parse_requirements_clean files filename reqs :
  parse_requirements files filename = inr reqs -> Forall clean reqs.
Proof.
  unfold parse_requirements. destruct (files filename) as [contents|]; [|discriminate].
  intros [= <-]. apply requirements_clean.
Qed.

Lemma parse_requirements_clean_witness :
  Forall clean ["click>=6.0"; "-r other.txt"; "boto3"].
Proof.
  apply (parse_requirements_clean
           (fun _ => Some ("# pins" +:+ newline +:+ "click>=6.0  # cli" +:+ newline +:+
                           "   " +:+ newline +:+ "-r other.txt" +:+ newline +:+
                           "  boto3 "))
           "requirements.in").
  vm_compute. reflexivity.
Defined.

(** Reading back what was read: the requirements of a file, written one
    to the line, are read as the same requirements. *)
Theorem requirements_read_back contents :
  requirements (one_per_line (requirements contents)) = requirements contents.
Proof. apply requirements_one_per_line, requirements_clean. Qed.

(** ** The address check, exactly *)

Module ReInverse.
Import Re ReFacts.

Lemma accepts_Eps_inv s : accepts Eps s = true -> s = [].
Proof.
  destruct s as [|c s]; simpl; [reflexivity|].
  rewrite accepts_Never. discriminate.
Qed.

Lemma accepts_Chr_inv p s :
  accepts (Chr p) s = true -> exists c, s = [c] /\ p c = true.
Proof.
  destruct s as [|c s]; simpl; [discriminate|].
  destruct (p c) eqn:E.
  - intros H. apply accepts_Eps_inv in H as ->. eauto.
  - rewrite accepts_Never. discriminate.
Qed.

Lemma accepts_lit_inv c s : accepts (lit c) s = true -> s = [c].
Proof.
  intros H. apply accepts_Chr_inv in H as (d & -> & E).
  apply Ascii.eqb_eq in E as ->. reflexivity.
Qed.

Lemma accepts_Cat_inv r1 r2 s :
  accepts (Cat r1 r2) s = true ->
  exists s1 s2, s = s1 ++ s2 /\ accepts r1 s1 = true /\ accepts r2 s2 = true.
Proof.
  revert r1. induction s as [|c s IH]; intros r1; simpl.
  - intros H. apply andb_true_iff in H as [H1 H2]. exists [], []. auto.
  - destruct (nullable r1) eqn:N.
    + rewrite accepts_Alt. intros H. apply orb_true_iff in H as [H|H].
      * apply IH in H as (s1 & s2 & -> & H1 & H2). exists (c :: s1), s2. auto.
      * exists [], (c :: s). auto.
    + intros H. apply IH in H as (s1 & s2 & -> & H1 & H2).
      exists (c :: s1), s2. auto.
Qed.

Lemma accepts_opt_inv r s : accepts (opt r) s = true -> s = [] \/ accepts r s = true.
Proof.
  unfold opt. rewrite accepts_Alt. intros H. apply orb_true_iff in H as [H|H].
  - right. exact H.
  - left. apply accepts_Eps_inv. exact H.
Qed.

Lemma accepts_upto_inv p n s :
  accepts (upto n (Chr p)) s = true ->
  Forall (fun c => p c = true) s /\ (length s <= n)%nat.
Proof.
  revert s. induction n as [|n IH]; intros s H.
  - apply accepts_Eps_inv in H as ->. split; [constructor | reflexivity].
  - cbn [upto] in H. apply accepts_opt_inv in H as [->|H].
    + split; [constructor | simpl; lia].
    + apply accepts_Cat_inv in H as (s1 & s2 & -> & H1 & H2).
      apply accepts_Chr_inv in H1 as (c & -> & Hc).
      apply IH in H2 as [F L]. split; [constructor; assumption | simpl; lia].
Qed.

Lemma accepts_rep1_inv n s :
  (1 <= n)%nat -> accepts (rep1 n digit) s = true -> digits 1 n s.
Proof.
  intros Hn H. unfold rep1, digit in H.
  apply accepts_Cat_inv in H as (s1 & s2 & -> & H1 & H2).
  apply accepts_Chr_inv in H1 as (c & -> & Hc).
  apply accepts_upto_inv in H2 as [F L].
  split; [constructor; assumption | simpl; lia].
Qed.

End ReInverse.

(** [looks_like_ip] holds of exactly the strings made of four groups of
    one to three digits with dots between, then nothing or a colon and one
    to five digits, then nothing or one final newline. *)
Theorem looks_like_ip_exactly s :
  looks_like_ip s = true <->
  exists g1 g2 g3 g4 port final_newline,
    digits 1 3 g1 /\ digits 1 3 g2 /\ digits 1 3 g3 /\ digits 1 3 g4 /\
    match port with Some p => digits 1 5 p | None => True end /\
    list_ascii_of_string s = dotted_chars g1 g2 g3 g4 port final_newline.
Proof.
  unfold looks_like_ip, ip_pattern, dotted_chars.
  remember (list_ascii_of_string s) as l eqn:El. clear El s. split.
  - intros H.
    apply ReInverse.accepts_Cat_inv in H as (g1 & r1 & -> & G1 & H).
    apply ReInverse.accepts_Cat_inv in H as (d1 & r2 & -> & D1 & H).
    apply ReInverse.accepts_Cat_inv in H as (g2 & r3 & -> & G2 & H).
    apply ReInverse.accepts_Cat_inv in H as (d2 & r4 & -> & D2 & H).
    apply ReInverse.accepts_Cat_inv in H as (g3 & r5 & -> & G3 & H).
    apply ReInverse.accepts_Cat_inv in H as (d3 & r6 & -> & D3 & H).
    apply ReInverse.accepts_Cat_inv in H as (g4 & r7 & -> & G4 & H).
    apply ReInverse.accepts_Cat_inv in H as (p & e & -> & P & E).
    apply ReInverse.accepts_lit_inv in D1 as ->.
    apply ReInverse.accepts_lit_inv in D2 as ->.
    apply ReInverse.accepts_lit_inv in D3 as ->.
    apply ReInverse.accepts_rep1_inv in G1, G2, G3, G4; try lia.
    assert (exists final_newline : bool,
              e = if final_newline then ["010"%char] else [])
      as [nl ->].
    { unfold Re.dollar in E. apply ReInverse.accepts_opt_inv in E as [->|E].
      - exists false. reflexivity.
      - apply ReInverse.accepts_lit_inv in E as ->. exists true. reflexivity. }
    apply ReInverse.accepts_opt_inv in P as [->|P].
    + exists g1, g2, g3, g4, None, nl. auto 10.
    + apply ReInverse.accepts_Cat_inv in P as (c & q & -> & C & Q).
      apply ReInverse.accepts_lit_inv in C as ->.
      apply ReInverse.accepts_rep1_inv in Q; [|lia].
      exists g1, g2, g3, g4, (Some q), nl. auto 10.
  - intros (g1 & g2 & g3 & g4 & port & nl & G1 & G2 & G3 & G4 & P & ->).
    apply ReFacts.accepts_Cat; [apply ReFacts.accepts_rep1; assumption|].
    change ("."%char :: g2 ++ ?x) with (["."%char] ++ g2 ++ x).
    apply ReFacts.accepts_Cat; [apply ReFacts.accepts_lit|].
    apply ReFacts.accepts_Cat; [apply ReFacts.accepts_rep1; assumption|].
    change ("."%char :: g3 ++ ?x) with (["."%char] ++ g3 ++ x).
    apply ReFacts.accepts_Cat; [apply ReFacts.accepts_lit|].
    apply ReFacts.accepts_Cat; [apply ReFacts.accepts_rep1; assumption|].
    change ("."%char :: g4 ++ ?x) with (["."%char] ++ g4 ++ x).
    apply ReFacts.accepts_Cat; [apply ReFacts.accepts_lit|].
    apply ReFacts.accepts_Cat; [apply ReFacts.accepts_rep1; assumption|].
    apply ReFacts.accepts_Cat.
    + destruct port as [p|]; [|reflexivity].
      apply ReFacts.accepts_opt.
      change (":"%char :: p) with ([":"%char] ++ p).
      apply ReFacts.accepts_Cat; [apply ReFacts.accepts_lit|].
      apply ReFacts.accepts_rep1; assumption.
    + destruct nl; reflexivity.
Qed.


(** ** The names of the machines *)

Lemma string_app_assoc (s1 s2 s3 : string) : (s1 +:+ s2) +:+ s3 = s1 +:+ (s2 +:+ s3).
Proof.
  induction s1 as [|c s1 IH]; [reflexivity|].
  change (String c ((s1 +:+ s2) +:+ s3) = String c (s1 +:+ (s2 +:+ s3))).
  rewrite IH. reflexivity.
Qed.

Lemma worker_name_inj prefix i j :
  worker_name prefix i = worker_name prefix j -> i = j.
Proof.
  unfold worker_name, str. intros H.
  apply (inj (String.app (prefix +:+ "-worker-"))) in H.
  apply (inj pretty) in H. exact H.
Qed.

Lemma worker_create_inj a consul i j :
  worker_create a consul i = worker_create a consul j -> i = j.
Proof.
  unfold worker_create. simpl. intros H. injection H as H.
  apply worker_name_inj in H. exact H.
Qed.

(** Every worker has a machine name of its own, and none has the
    master's: the requests lines 100-103 and 113-119 build are pairwise
    different, for any instance type of the master and any numbers of
    workers. *)
Theorem machine_names_distinct :
  (forall prefix i j, worker_name prefix i = worker_name prefix j -> i = j) /\
  (forall prefix i, worker_name prefix i <> master_name prefix) /\
  (forall a consul n, NoDup (worker_requests a consul (seq 0 n))) /\
  (forall a consul indices, NoDup indices -> NoDup (worker_requests a consul indices)) /\
  (forall a consul master_instance_type i,
     worker_create a consul i <> master_create a consul master_instance_type).
Proof.
  assert (forall a consul indices,
            NoDup indices -> NoDup (worker_requests a consul indices)) as D.
  { intros a consul indices Hn. unfold worker_requests.
    apply (NoDup_fmap_2_strong (worker_create a consul)); [|exact Hn].
    intros i j _ _. apply worker_create_inj. }
  split; [exact worker_name_inj|]. split; [|split; [|split]].
  - intros prefix i. unfold worker_name, master_name.
    rewrite string_app_assoc. intros H.
    apply (inj (String.app prefix)) in H. discriminate.
  - intros a consul n. apply D, NoDup_seq.
  - exact D.
  - intros a consul m i. unfold worker_create, master_create. simpl. discriminate.
Qed.

(** ** A run of [create], as a whole *)



(** Neither [create] nor [test] ever asks for a machine to be removed,
    whatever fails. *)
Theorem create_cluster_never_removes :
  (forall host a, Forall keeps (snd (exec (create_cluster host a)))) /\
  (forall host prefix, Forall keeps (snd (exec (test_spark_cluster host prefix)))).
Proof.
  split.
  - intros host a. rewrite create_cluster_as_written. repeat constructor.
  - intros host prefix. rewrite test_spark_cluster_as_written. repeat constructor.
Qed.

(** ** [get_ip_from_name] on its errors *)

(** [get_ip_from_name] never returns an address.  A query that ends with
    a status other than zero is raised as the error of that query; after
    a query that succeeds, line 152 raises the [NameError] of [json]. *)
Theorem get_ip_from_name_failures host name private h :
  let c := fst (run host h describe_instances None) in
  (c <> 0 ->
   fst (get_ip_from_name host name private h) =
     inl (CalledProcessError c describe_instances)) /\
  (c = 0 -> fst (get_ip_from_name host name private h) = inl (NameError "json")) /\
  (forall address, fst (get_ip_from_name host name private h) <> inr address).
Proof.
  cbv zeta. rewrite get_ip_from_name_as_written. unfold inventory_error. simpl fst.
  split; [|split].
  - intros N. apply Z.eqb_neq in N. rewrite N. reflexivity.
  - intros E. rewrite E. reflexivity.
  - intros address. discriminate.
Qed.

Lemma get_ip_from_name_failures_witness :
  fst (exec (get_ip_from_name (lab 0 (always "running") all_up []) "spark-master" true)) =
    inl (NameError "json").
Proof.
  apply (proj1 (proj2 (get_ip_from_name_failures
                         (lab 0 (always "running") all_up []) "spark-master" true []))).
  reflexivity.
Defined.

(** The subscripts of line 153 take [Reservations] for a mapping from
    names.  On a document in which it is an array, as in the layout of the
    inventory program, they raise [TypeError] for every name. *)
Theorem lookup_instance_in_arrays fields reservations name :
  fields !! "Reservations" = Some (JArr reservations) ->
  lookup_instance (JObj fields) name = inl TypeError.
Proof.
  intros R. unfold lookup_instance, and_then, subscript. rewrite R. reflexivity.
Qed.

Lemma lookup_instance_in_arrays_witness :
  lookup_instance (aws_inventory "running") "spark-master" = inl TypeError.
Proof.
  unfold aws_inventory.
  eapply lookup_instance_in_arrays. apply lookup_singleton_eq.
Defined.

(** ** [create_consul_box] *)

(** [create_consul_box] asks for the machine, then for its connection
    options, then starts the container, and stops at the first of the
    three that ends with a status other than zero, with that error and
    without printing; the container is started with the whole output of
    the second as one argument, and the closing line is printed when all
    three succeeded.  The machine is asked for with the one word
    [create--driver] where the subcommand goes. *)
Theorem create_consul_box_steps host name type group :
  let r := exec (create_consul_box host name type group) in
  let create := consul_machine_create name type group in
  let config := docker_machine_config name in
  nth_error create 1 = Some "create--driver" /\
  ((exists out,
      r = (inr tt,
           [CheckCall create None 0; CheckOutput config None 0 out;
            CheckCall (consul_run out) None 0;
            Echo ("Consul box successfully created at " +:+ out)])) \/
   (exists c, c <> 0 /\
      r = (inl (CalledProcessError c create), [CheckCall create None c])) \/
   (exists c out, c <> 0 /\
      r = (inl (CalledProcessError c config),
           [CheckCall create None 0; CheckOutput config None c out])) \/
   (exists c out, c <> 0 /\
      r = (inl (CalledProcessError c (consul_run out)),
           [CheckCall create None 0; CheckOutput config None 0 out;
            CheckCall (consul_run out) None c]))).
Proof.
  cbv zeta. split; [reflexivity|].
  unfold exec, create_consul_box, bind, check_call, check_output, echo.
  destruct (Z.eqb_spec (fst (run host [] (consul_machine_create name type group) None)) 0)
    as [E1|N1].
  - rewrite E1. simpl app.
    destruct (run host _ (docker_machine_config name) None) as [c2 out] eqn:R2.
    destruct (Z.eqb_spec c2 0) as [->|N2].
    + simpl app.
      destruct (Z.eqb_spec (fst (run host
                  [CheckCall (consul_machine_create name type group) None 0;
                   CheckOutput (docker_machine_config name) None 0 out]
                  (consul_run out) None)) 0) as [E3|N3].
      * left. exists out. rewrite E3. reflexivity.
      * right. right. right. eexists _, out. split; [exact N3 | reflexivity].
    + right. right. left. exists c2, out. split; [exact N2 | reflexivity].
  - right. left. eexists. split; [exact N1 | reflexivity].
Qed.

Example create_consul_box_lab :
  echoes (snd (exec (create_consul_box (lab 0 (always "running") all_up [])
                                       "consul-box" "t2.nano" "consul-sg"))) =
    ["Consul box successfully created at "].
Proof. vm_compute. reflexivity. Qed.


(** ** [test] without a machine configuration *)

(** When the configuration of the master cannot be read, [test] ends
    with that error: nothing is submitted and nothing is printed. *)
Theorem test_spark_cluster_env_failure host prefix c out :
  run host [] (docker_machine_env (master_name prefix)) None = (c, out) ->
  c <> 0 ->
  exec (test_spark_cluster host prefix) =
    (inl (CalledProcessError c (docker_machine_env (master_name prefix))),
     [CheckOutput (docker_machine_env (master_name prefix)) None c out]).
Proof.
  intros R Nc.
  unfold exec, test_spark_cluster, get_swarm_env, bind, check_output.
  rewrite R. apply Z.eqb_neq in Nc. rewrite Nc. reflexivity.
Qed.

Lemma test_spark_cluster_env_failure_witness :
  exec (test_spark_cluster (lab_status 1) "spark") =
    (inl (CalledProcessError 1 (docker_machine_env (master_name "spark"))),
     [CheckOutput (docker_machine_env (master_name "spark")) None 1 ""]).
Proof.
  apply (test_spark_cluster_env_failure (lab_status 1) "spark" 1 "");
    [reflexivity | discriminate].
Defined.
